(** * Agent tutorial scripts: tools, stages and the refinement loop

    A shallow embedding of the Python sources

    - [Day-2/agent_tools.py]: the two mock lookup tools
      [get_fee_for_payment_method] and [get_exchange_rate];
    - [Day-1/agent_architectures.py]: the story workflow, i.e. the tool
      [exit_loop], the three LLM stages [initial_writer], [critic_agent],
      [refiner_agent] and their composition
      [SequentialAgent [initial_writer; LoopAgent [critic_agent; refiner_agent]]].

    Python values are modelled as follows: [str] is [string], a [float]
    literal is the binary64 value it denotes ([PrimFloat.float]), a [dict]
    with string keys is a [gmap string _]. *)

From Stdlib Require Import Ascii String PrimFloat.
From stdpp Require Import base option strings list gmap.

Set Default Proof Using "Type".
Local Open Scope string_scope.

(** A decimal literal such as [0.02] denotes, as in Python, the nearest
    binary64 value. *)
Set Warnings "-inexact-float".

(** ** Python values *)

(** The values stored in the dictionaries the tools return. *)
Inductive value : Type :=
  | VStr (s : string)
  | VFloat (f : float).

(** A Python [dict] with [str] keys. *)
Abbreviation dict := (gmap string value).

(** ** [str.lower] on ASCII text

    The tools only call [lower] on their arguments.  They are defined below
    over an arbitrary [lower]; [ascii_lower] is the instance used to run them:
    it maps ['A'..'Z'] to ['a'..'z'] and leaves every other character alone,
    which is what [str.lower] does on ASCII text. *)

Definition ascii_lower_char (c : ascii) : ascii :=
  let n := nat_of_ascii c in
  if (65 <=? n)%nat && (n <=? 90)%nat then ascii_of_nat (n + 32) else c.

Fixpoint ascii_lower (s : string) : string :=
  match s with
  | EmptyString => EmptyString
  | String c s' => String (ascii_lower_char c) (ascii_lower s')
  end.

Module AgentTools.
Section agent_tools.

(** Python's [str.lower]. *)
Variable lower : string -> string.

(** *** [get_fee_for_payment_method] *)

Definition fee_database : gmap string float :=
  {[ "platinum credit card" := 0.02%float;
     "gold credit card" := 0.025%float;
     "bank transfer" := 0.01%float ]}.

Definition get_fee_for_payment_method (method : string) : dict :=
  let fee := fee_database !! lower method in
  match fee with
  | Some fee => {[ "status" := VStr "success"; "fee_percentage" := VFloat fee ]}
  | None => {[ "status" := VStr "error";
               "error_message" := VStr "payment method not found" ]}
  end.

(** *** [get_exchange_rate] *)

Definition rate_database : gmap string (gmap string float) :=
  {[ "usd" := {[ "eur" := 0.93%float;
                 "jpy" := 157.50%float;
                 "inr" := 83.58%float ]} ]}.

Definition get_exchange_rate (base_currency target_currency : string) : dict :=
  let base := lower base_currency in
  let target := lower target_currency in
  let rate := default ∅ (rate_database !! base) !! target in
  match rate with
  | Some rate => {[ "status" := VStr "success"; "rate" := VFloat rate ]}
  | None => {[ "status" := VStr "error";
               "error_message" :=
                 VStr ("Unsupported currency pair: "
                         ++ base_currency ++ "/" ++ target_currency) ]}
  end.

End agent_tools.
End AgentTools.


(** ** The story workflow of [Day-1/agent_architectures.py] *)

Module StoryWorkflow.

(** The session state the stages share: named fields holding text. *)
Abbreviation Workspace := (gmap string string).

(** A tool runs inside a session.  It is modelled as a function of the
    Workspace that returns its response together with the Workspace it
    leaves behind, so that having no effect is a statement about it. *)
Definition Tool : Type := Workspace -> dict * Workspace.

(** [exit_loop] takes no argument and returns a constant payload. *)
Definition exit_loop : Tool := fun ws =>
  ({[ "status" := VStr "approved";
      "message" := VStr "Story approved, exiting loop." ]}, ws).

(** Modelled from the spec: how a tool tells the loop to stop belongs to
    the imported framework and is not in the sources.  Per section 3 the
    exit signal is a side effect a stage may emit besides its output, and
    per section 9 it is raised by the callback the refiner invokes, not
    read off the value the callback returns.  The side effect is made
    explicit: a tool that can signal runs in the context of its call, which
    holds the Workspace and the signal ([escalate]). *)
Record ToolContext : Type := mkToolContext {
  tool_state : Workspace;
  escalate : bool
}.

(** Modelled from the spec: a tool as the loop sees it, a function of the
    context of its call. *)
Definition ContextTool : Type := ToolContext -> dict * ToolContext.

(** Modelled from the spec: [FunctionTool f] wraps a function that declares
    no context parameter, as [exit_loop] does.  Such a function is never
    handed the context: it runs on the Workspace, and the signal stays as it
    was. *)
Definition FunctionTool (f : Tool) : ContextTool := fun ctx =>
  let '(response, ws) := f (tool_state ctx) in
  (response, mkToolContext ws (escalate ctx)).

(** What a stage yields: the text of its final response, stored under its
    [output_key]; or a call to one of its tools, with the tool's response,
    whether the call raised the exit signal, and the text the model added
    once it had the response (empty when it added none). *)
Inductive Output : Type :=
  | Text (output_key text : string)
  | ToolCall (tool : string) (response : dict) (signal : bool) (text : string).

(** One invocation of a stage, as recorded in the session: who ran, in which
    iteration of the loop (0 before the loop), the fields that were
    substituted into its instruction, and what it yielded. *)
Record Event : Type := mkEvent {
  author : string;
  round : nat;
  reads : list (string * string);
  content : Output
}.

Record Session : Type := mkSession {
  prompt : string;
  state : Workspace;
  events : list Event;
  iteration : nat
}.

Inductive Error : Type :=
  | StageFailure (stage key : string).

Inductive result (A : Type) : Type :=
  | Ok (a : A)
  | Err (e : Error).
Arguments Ok {A} a.
Arguments Err {A} e.

Definition bind {A B} (m : result A) (f : A -> result B) : result B :=
  match m with
  | Ok a => f a
  | Err e => Err e
  end.

Notation "'let*' x ':=' m 'in' k" := (bind m (fun x => k))
  (at level 10, x pattern, m at level 100, k at level 200).

(** A stage maps the session to the event it yields and the Workspace it
    leaves, or fails. *)
Definition Stage : Type := Session -> result (Event * Workspace).

(** Modelled from the spec: how the imported framework runs an LLM stage is
    not in the sources.  Per the data model a stage reads named fields of
    the Workspace ([read], one per placeholder of its instruction; a missing
    field is a stage failure), and writes exactly one named field ([save],
    the [output_key]) or calls a tool ([call]). *)
Definition read (stage key : string) (s : Session) : result string :=
  match state s !! key with
  | Some v => Ok v
  | None => Err (StageFailure stage key)
  end.

Definition save (stage : string) (rd : list (string * string))
    (output_key text : string) (s : Session) : Event * Workspace :=
  (mkEvent stage (iteration s) rd (Text output_key text),
   <[output_key := text]> (state s)).

(** Modelled from the spec: a stage that calls a tool.  The call starts
    with no signal raised, and the event records whether the tool raised
    one.  Per section 3 the signal comes instead of, or in addition to, the
    normal output: the text the model adds after the tool's response, if it
    adds any, is stored under the stage's [output_key] like any final
    response. *)
Definition call (stage : string) (rd : list (string * string))
    (name : string) (tool : ContextTool) (output_key text : string)
    (s : Session) : Event * Workspace :=
  let '(response, ctx) := tool (mkToolContext (state s) false) in
  (mkEvent stage (iteration s) rd
           (ToolCall name response (escalate ctx) text),
   if bool_decide (text = "") then tool_state ctx
   else <[output_key := text]> (tool_state ctx)).

Definition APPROVED : string := "APPROVED".

Section stages.

(** The hosted model is a black box.  Its answers are parameters: the
    first draft written from the user's prompt, the critique of a story,
    and the rewrite of a story under a critique.  The last two may depend
    on the conversation so far. *)
Variable writer_llm : string -> string.
Variable critic_llm : list Event -> string -> string.
Variable refiner_llm : list Event -> string -> string -> string.

(** [initial_writer]: no placeholder, [output_key="story_draft"]. *)
Definition initial_writer : Stage := fun s =>
  Ok (save "InitialWriter" [] "story_draft" (writer_llm (prompt s)) s).

(** [critic_agent]: instruction over [{story_draft}],
    [output_key="critique"].  Whether it answers "APPROVED" or suggestions
    is the model's judgement. *)
Definition critic_agent : Stage := fun s =>
  let* story_draft := read "CriticAgent" "story_draft" s in
  Ok (save "CriticAgent" [("story_draft", story_draft)]
           "critique" (critic_llm (events s) story_draft) s).

(** Modelled from the spec: the two outcomes of the refiner stage
    (section 4.1(b)). *)
Inductive Outcome : Type := Approval | Revision.

(** Modelled from the spec: which outcome the refiner takes is decided by
    the hosted model; the source only hands it an instruction and holds no
    code that compares the critique.  [refiner_outcome] is the contract of
    section 4.1(b), which is also what the instruction asks for (IF the
    critique is EXACTLY "APPROVED", you MUST call the `exit_loop` function
    and nothing else; OTHERWISE, rewrite the story draft): the approval
    outcome on the sentinel and on nothing else.  Nothing in the source
    makes the model keep it. *)
Definition refiner_outcome (critique : string) : Outcome :=
  if bool_decide (critique = APPROVED) then Approval else Revision.

(** Modelled from the spec: the refiner over the tool it is given.  From the
    source are the placeholders [{story_draft}] and [{critique}], the
    [output_key="current_story"] and the name of the tool; the choice between
    the outcomes is [refiner_outcome].  [refiner_llm] gives the text of the
    model's final response: on the revision outcome the rewritten story, on
    the approval outcome what it says after the tool's response (empty if it
    calls the tool and nothing else). *)
Definition refiner_with (tool : ContextTool) : Stage := fun s =>
  let* story_draft := read "RefinerAgent" "story_draft" s in
  let* critique := read "RefinerAgent" "critique" s in
  let rd := [("story_draft", story_draft); ("critique", critique)] in
  let text := refiner_llm (events s) story_draft critique in
  match refiner_outcome critique with
  | Approval => Ok (call "RefinerAgent" rd "exit_loop" tool
                         "current_story" text s)
  | Revision => Ok (save "RefinerAgent" rd "current_story" text s)
  end.

(** [refiner_agent]: the stage as the source configures it,
    [tools=[FunctionTool(exit_loop)]]; the choice between its outcomes is
    the spec's, see [refiner_with]. *)
Definition refiner_agent : Stage := refiner_with (FunctionTool exit_loop).

(** *** The controller *)

Inductive Reason : Type := approved | exhausted.

(** Modelled from the spec: the loop engine ([LoopAgent] and
    [SequentialAgent] of the imported framework) is not in the sources.
    Per section 4.1, the sub-agents of an iteration run in order, each
    event is recorded and its Workspace kept ([commit]); an event carries
    the exit signal when a tool call raised it ([is_exit_signal]), and
    observing it ends the loop at once with reason [approved]; after
    [max_iterations] iterations without it the loop ends with reason
    [exhausted]. *)
Definition commit (s : Session) (ew : Event * Workspace) : Session :=
  mkSession (prompt s) ew.2 (events s ++ [ew.1]) (iteration s).

(** Modelled from the spec: an event is the exit signal when a tool call
    raised it; that a tool was called, or what it returned, is none. *)
Definition is_exit_signal (e : Event) : bool :=
  match content e with
  | ToolCall _ _ signal _ => signal
  | Text _ _ => false
  end.

Fixpoint run_sub_agents (sub_agents : list Stage) (s : Session)
    : result (bool * Session) :=
  match sub_agents with
  | [] => Ok (false, s)
  | agent :: rest =>
      let* ew := agent s in
      let s' := commit s ew in
      if is_exit_signal ew.1 then Ok (true, s')
      else run_sub_agents rest s'
  end.

Definition next_iteration (s : Session) : Session :=
  mkSession (prompt s) (state s) (events s) (S (iteration s)).

Fixpoint LoopAgent (sub_agents : list Stage) (max_iterations : nat)
    (s : Session) : result (Reason * Session) :=
  match max_iterations with
  | 0 => Ok (exhausted, s)
  | S remaining =>
      let* r := run_sub_agents sub_agents (next_iteration s) in
      if r.1 then Ok (approved, r.2)
      else LoopAgent sub_agents remaining r.2
  end.

(** [story_refinement_loop = LoopAgent(sub_agents=[critic_agent,
    refiner_agent], max_iterations=2)]; the ceiling is kept as an argument
    and [max_iterations] is the value the source passes. *)
Definition story_refinement_loop (max_iterations : nat)
    : Session -> result (Reason * Session) :=
  LoopAgent [critic_agent; refiner_agent] max_iterations.

Definition max_iterations : nat := 2.

(** [root_agent = SequentialAgent(sub_agents=[initial_writer,
    story_refinement_loop])]. *)
Definition root_agent (max_iterations : nat) (s : Session)
    : result (Reason * Session) :=
  let* ew := initial_writer s in
  story_refinement_loop max_iterations (commit s ew).

(** Modelled from the spec: [run(initialPrompt) -> finalArtifact] of
    section 4.1 is not in the sources.  The Workspace is created empty,
    the run returns the last produced artifact (the refiner's field if it
    has written one, the drafter's otherwise) together with the
    termination reason. *)
Definition new_session (initialPrompt : string) : Session :=
  mkSession initialPrompt ∅ [] 0.

Definition latest_artifact (s : Session) : result string :=
  match state s !! "current_story" with
  | Some a => Ok a
  | None => read "run" "story_draft" s
  end.

Record RunResult : Type := mkRunResult {
  final_artifact : string;
  reason : Reason;
  session : Session
}.

Definition run (max_iterations : nat) (initialPrompt : string)
    : result RunResult :=
  let* r := root_agent max_iterations (new_session initialPrompt) in
  let* a := latest_artifact r.2 in
  Ok (mkRunResult a r.1 r.2).

(** The session the loop starts from: the drafter has run once. *)
Definition drafted (initialPrompt : string) : Session :=
  let s := new_session initialPrompt in
  commit s (save "InitialWriter" [] "story_draft" (writer_llm initialPrompt) s).

(** *** The sessions of one iteration, and the invariant of the loop

    With the draft [d] in the Workspace, the next iteration first leaves
    [critiqued s d]; the refiner then leaves either [revised s d], or
    [exited s d] when it has called [exit_loop]. *)
Definition critiqued (s : Session) (d : string) : Session :=
  let s1 := next_iteration s in
  commit s1 (save "CriticAgent" [("story_draft", d)]
                  "critique" (critic_llm (events s) d) s1).

Definition revised (s : Session) (d : string) : Session :=
  let s1 := critiqued s d in
  let c := critic_llm (events s) d in
  commit s1 (save "RefinerAgent" [("story_draft", d); ("critique", c)]
                  "current_story" (refiner_llm (events s1) d c) s1).

Definition exited (s : Session) (d : string) : Session :=
  let s1 := critiqued s d in
  let c := critic_llm (events s) d in
  commit s1 (call "RefinerAgent" [("story_draft", d); ("critique", c)]
                  "exit_loop" (FunctionTool exit_loop)
                  "current_story" (refiner_llm (events s1) d c) s1).

(** What holds of the session between two iterations, as long as no
    critique was the sentinel: the draft [d] is in place, the stages ran in
    turn, every critic read [d] and asked for a revision, every refiner
    wrote a story, and the last event is the one that produced the latest
    artifact (the drafter's before the first iteration, the refiner's of the
    iteration just finished afterwards). *)
Record revising (d : string) (s : Session) : Prop := mkRevising {
  rev_draft : state s !! "story_draft" = Some d;
  rev_authors :
    map author (events s)
    = "InitialWriter"
        :: concat (replicate (iteration s) ["CriticAgent"; "RefinerAgent"]);
  rev_rounds : Forall (fun e => (round e ≤ iteration s)%nat) (events s);
  rev_critic :
    Forall (fun e => author e = "CriticAgent" ->
              reads e = [("story_draft", d)]
              ∧ ∃ c, content e = Text "critique" c ∧ c ≠ APPROVED)
           (events s);
  rev_refiner :
    Forall (fun e => author e = "RefinerAgent" ->
              ∃ a, content e = Text "current_story" a)
           (events s);
  rev_artifact :
    ∃ x, last (events s) = Some x
         ∧ round x = iteration s
         ∧ match iteration s with
           | 0 => x = mkEvent "InitialWriter" 0 [] (Text "story_draft" d)
                  ∧ state s !! "current_story" = None
           | S _ => author x = "RefinerAgent"
                    ∧ ∃ a, content x = Text "current_story" a
                           ∧ state s !! "current_story" = Some a
           end
}.

(** How often a stage was invoked in a list of events. *)
Definition invocations (stage : string) (es : list Event) : nat :=
  length (filter (fun a => a = stage) (map author es)).

End stages.

(** *** Scripted models, to run the workflow on concrete conversations *)

Definition demo_writer (_ : string) : string := "draft-0".

Definition demo_rewriter (history : list Event) (_ _ : string) : string :=
  match length history with
  | 2 => "draft-1"
  | 4 => "draft-2"
  | _ => "draft-n"
  end.

(** A critic that never approves, one that approves its second reading, and
    one that approves at once. *)
Definition strict_critic (_ : list Event) (_ : string) : string :=
  "needs work".

Definition second_time_critic (history : list Event) (_ : string) : string :=
  if (length history <? 2)%nat then "needs work" else "APPROVED".

Definition approving_critic (_ : list Event) (_ : string) : string :=
  "APPROVED".

(** A refiner that follows its instruction to the letter: on the sentinel
    it calls the tool and says nothing else. *)
Definition terse_rewriter (history : list Event) (story_draft critique : string)
    : string :=
  if bool_decide (critique = "APPROVED") then ""
  else demo_rewriter history story_draft critique.

(** Modelled from the spec: the exit callback of section 9, one that takes
    the context of its call and raises the signal.  It is not in the
    sources, and serves for comparison only. *)
Definition signalling_exit_loop : ContextTool := fun ctx =>
  ((exit_loop (tool_state ctx)).1, mkToolContext (tool_state ctx) true).

End StoryWorkflow.

(** ** The other workflows of [Day-1/agent_architectures.py]

    The blog pipeline and the research system are built from the same kind
    of stage as the story workflow, and run by the same in-order runner
    [run_sub_agents]; none of their stages has a tool, so the runner never
    stops early on them. *)

Module Pipelines.
Import StoryWorkflow.

(** *** The blog pipeline: outline, draft, edited post *)

Section blog_pipeline.

(** The model's answers: the outline written from the user's prompt, the
    draft written from an outline, the post edited from a draft. *)

Variable outline_llm : string -> string.
Variable writer_llm : list Event -> string -> string.
Variable editor_llm : list Event -> string -> string.

(** [outline_Agent]: no placeholder, [output_key="blog_outline"]. *)
Definition outline_Agent : Stage := fun s =>
  Ok (save "OutlineAgent" [] "blog_outline" (outline_llm (prompt s)) s).

(** [writer_Agent]: instruction over [{blog_outline}],
    [output_key="blog_draft"]. *)
Definition writer_Agent : Stage := fun s =>
  let* blog_outline := read "WriterAgent" "blog_outline" s in
  Ok (save "WriterAgent" [("blog_outline", blog_outline)]
           "blog_draft" (writer_llm (events s) blog_outline) s).

(** [editor_Agent]: instruction over [{blog_draft}],
    [output_key="final_blog_post"]. *)
Definition editor_Agent : Stage := fun s =>
  let* blog_draft := read "EditorAgent" "blog_draft" s in
  Ok (save "EditorAgent" [("blog_draft", blog_draft)]
           "final_blog_post" (editor_llm (events s) blog_draft) s).

(** [root_agent = SequentialAgent(name="BlogPipeline",
    sub_agents=[outline_Agent, writer_Agent, editor_Agent])]. *)
Definition BlogPipeline : Session -> result (bool * Session) :=
  run_sub_agents [outline_Agent; writer_Agent; editor_Agent].

End blog_pipeline.

(** *** The research system: three researchers, then an aggregator *)

Section research_system.

(** The model's answers: each researcher's report (searching is part of the
    black box), and the summary the aggregator writes from three reports. *)

Variable tech_llm health_llm finance_llm : list Event -> string -> string.
Variable aggregator_llm : list Event -> string -> string -> string -> string.

(** The researchers: no placeholder, [output_key="tech_summary"],
    ["health_summary"] and ["finance_summary"]. *)
Definition tech_researcher : Stage := fun s =>
  Ok (save "TechResearcher" [] "tech_summary"
           (tech_llm (events s) (prompt s)) s).

Definition health_researcher : Stage := fun s =>
  Ok (save "HealthResearcher" [] "health_summary"
           (health_llm (events s) (prompt s)) s).

Definition finance_researcher : Stage := fun s =>
  Ok (save "FinanceResearcher" [] "finance_summary"
           (finance_llm (events s) (prompt s)) s).

(** [aggregator_agent]: instruction over [{tech_summary}],
    [{health_summary}] and [{finance_summary}],
    [output_key="executive_summary"]. *)
Definition aggregator_agent : Stage := fun s =>
  let* tech_summary := read "AggregatorAgent" "tech_summary" s in
  let* health_summary := read "AggregatorAgent" "health_summary" s in
  let* finance_summary := read "AggregatorAgent" "finance_summary" s in
  Ok (save "AggregatorAgent"
           [("tech_summary", tech_summary); ("health_summary", health_summary);
            ("finance_summary", finance_summary)]
           "executive_summary"
           (aggregator_llm (events s) tech_summary health_summary
              finance_summary) s).

(** [parallel_research_team = ParallelAgent(sub_agents=[tech_researcher,
    health_researcher, finance_researcher])].  The three run side by side;
    the session records their events in some order.  The team is indexed by
    [Researcher] so that an order of completion is a list of its members. *)
Inductive Researcher : Type := Tech | Health | Finance.

Definition researcher (r : Researcher) : Stage :=
  match r with
  | Tech => tech_researcher
  | Health => health_researcher
  | Finance => finance_researcher
  end.

Definition parallel_research_team : list Researcher := [Tech; Health; Finance].

(** [root_agent = SequentialAgent(name="ResearchSystem",
    sub_agents=[parallel_research_team, aggregator_agent])], with the team's
    events recorded in the given order. *)
Definition ResearchSystem (order : list Researcher)
    : Session -> result (bool * Session) :=
  run_sub_agents (map researcher order ++ [aggregator_agent]).

(** The name and the [output_key] of each researcher. *)
Definition researcher_name (r : Researcher) : string :=
  match r with
  | Tech => "TechResearcher"
  | Health => "HealthResearcher"
  | Finance => "FinanceResearcher"
  end.

Definition researcher_key (r : Researcher) : string :=
  match r with
  | Tech => "tech_summary"
  | Health => "health_summary"
  | Finance => "finance_summary"
  end.

End research_system.

#[global] Instance Researcher_eq_dec : EqDecision Researcher.
Proof. solve_decision. Defined.

End Pipelines.



(** * Properties *)

(** ** The lookup tools on concrete arguments *)
Example fee_platinum :
  AgentTools.get_fee_for_payment_method ascii_lower "Platinum Credit Card"
  = {[ "status" := VStr "success"; "fee_percentage" := VFloat 0.02%float ]}.
Proof. vm_compute. reflexivity. Qed.

Example rate_usd_eur :
  AgentTools.get_exchange_rate ascii_lower "USD" "EUR"
  = {[ "status" := VStr "success"; "rate" := VFloat 0.93%float ]}.
Proof. vm_compute. reflexivity. Qed.

Example rate_eur_usd :
  AgentTools.get_exchange_rate ascii_lower "EUR" "usd"
  = {[ "status" := VStr "error";
       "error_message" := VStr "Unsupported currency pair: EUR/usd" ]}.
Proof. vm_compute. reflexivity. Qed.

(** ** Properties of the lookup tools *)

Lemma ascii_lower_char_idem c :
  ascii_lower_char (ascii_lower_char c) = ascii_lower_char c.
Proof. destruct c as [[] [] [] [] [] [] [] []]; reflexivity. Qed.

Lemma ascii_lower_idem s : ascii_lower (ascii_lower s) = ascii_lower s.
Proof.
  induction s as [|c s IH]; simpl; [reflexivity|].
  by rewrite ascii_lower_char_idem, IH.
Qed.

Section tool_lemmas.
Import AgentTools.

Lemma fee_database_lookup k f :
  fee_database !! k = Some f ↔
    (k = "platinum credit card" ∧ f = 0.02%float)
    ∨ (k = "gold credit card" ∧ f = 0.025%float)
    ∨ (k = "bank transfer" ∧ f = 0.01%float).
Proof.
  unfold fee_database. split.
  - intros H.
    destruct (decide (k = "platinum credit card")) as [->|?];
      [simplify_map_eq; auto|].
    destruct (decide (k = "gold credit card")) as [->|?];
      [simplify_map_eq; auto|].
    destruct (decide (k = "bank transfer")) as [->|?];
      simplify_map_eq; auto.
  - intros [[-> ->]|[[-> ->]|[-> ->]]]; by simplify_map_eq.
Qed.

Lemma fee_database_keys k :
  fee_database !! k = None ↔
    k ≠ "platinum credit card" ∧ k ≠ "gold credit card" ∧ k ≠ "bank transfer".
Proof.
  split.
  - intros H. repeat split; intros ->; by vm_compute in H.
  - intros (? & ? & ?). unfold fee_database. by simplify_map_eq.
Qed.

Lemma rate_database_lookup b t r :
  default ∅ (rate_database !! b) !! t = Some r ↔
    b = "usd" ∧ ((t = "eur" ∧ r = 0.93%float)
                 ∨ (t = "jpy" ∧ r = 157.50%float)
                 ∨ (t = "inr" ∧ r = 83.58%float)).
Proof.
  unfold rate_database. split.
  - destruct (decide (b = "usd")) as [->|?]; simplify_map_eq; [|done].
    intros H. split; [done|].
    destruct (decide (t = "eur")) as [->|?]; [simplify_map_eq; auto|].
    destruct (decide (t = "jpy")) as [->|?]; [simplify_map_eq; auto|].
    destruct (decide (t = "inr")) as [->|?]; simplify_map_eq; auto.
  - intros [-> [[-> ->]|[[-> ->]|[-> ->]]]]; by simplify_map_eq.
Qed.

(** A success dictionary determines the number it carries, and is never
    an error dictionary. *)
Lemma success_inj (k : string) (x y : float) :
  k ≠ "status" →
  ({[ "status" := VStr "success"; k := VFloat x ]} : dict)
  = {[ "status" := VStr "success"; k := VFloat y ]} → x = y.
Proof.
  intros Hk H. apply (f_equal (.!! k)) in H. by simplify_map_eq.
Qed.

Lemma success_not_error (k : string) (x : float) (msg : string) :
  ({[ "status" := VStr "success"; k := VFloat x ]} : dict)
  ≠ {[ "status" := VStr "error"; "error_message" := VStr msg ]}.
Proof.
  intros H. apply (f_equal (.!! "status")) in H. by simplify_map_eq.
Qed.

End tool_lemmas.

(** ** [get_fee_for_payment_method] and [get_exchange_rate] *)

Section tool_theorems.
Import AgentTools.

(** C8: for every string [method] the fee tool returns a dictionary.  It is
    the success dictionary carrying [f] exactly when [method.lower()] is
    "platinum credit card" and [f = 0.02], "gold credit card" and
    [f = 0.025], or "bank transfer" and [f = 0.01]; in every other case it
    is the error dictionary "payment method not found".  Since lowering a
    lowered string changes nothing, the tool gives the same answer on
    [method] and on [method.lower()]. *)
Theorem get_fee_for_payment_method_correct (lower : string -> string) :
  (∀ s, lower (lower s) = lower s) →
  ∀ method : string,
    (∀ f, get_fee_for_payment_method lower method
          = {[ "status" := VStr "success"; "fee_percentage" := VFloat f ]}
          ↔ (lower method = "platinum credit card" ∧ f = 0.02%float)
            ∨ (lower method = "gold credit card" ∧ f = 0.025%float)
            ∨ (lower method = "bank transfer" ∧ f = 0.01%float))
    ∧ (get_fee_for_payment_method lower method
       = {[ "status" := VStr "error";
            "error_message" := VStr "payment method not found" ]}
       ↔ lower method ≠ "platinum credit card"
         ∧ lower method ≠ "gold credit card"
         ∧ lower method ≠ "bank transfer")
    ∧ ((∃ f, get_fee_for_payment_method lower method
             = {[ "status" := VStr "success";
                  "fee_percentage" := VFloat f ]})
       ∨ get_fee_for_payment_method lower method
         = {[ "status" := VStr "error";
              "error_message" := VStr "payment method not found" ]})
    ∧ get_fee_for_payment_method lower method
      = get_fee_for_payment_method lower (lower method).
Proof.
  intros Hidem method. unfold get_fee_for_payment_method.
  rewrite Hidem.
  destruct (fee_database !! lower method) as [fee|] eqn:Hfee.
  - split_and!.
    + intros f. split.
      * intros H. apply success_inj in H; [subst f|done].
        by apply fee_database_lookup.
      * intros H. apply fee_database_lookup in H. congruence.
    + split.
      * intros H. by apply success_not_error in H.
      * intros H. apply fee_database_keys in H. congruence.
    + left. by exists fee.
    + done.
  - split_and!.
    + intros f. split.
      * intros H. symmetry in H. by apply success_not_error in H.
      * intros H. apply fee_database_lookup in H. congruence.
    + split; [intros _|done]. by apply fee_database_keys.
    + by right.
    + done.
Qed.

(** C9: for every pair of strings the rate tool returns a dictionary.  It
    is the success dictionary carrying [r] exactly when the lowered pair is
    (usd, eur) and [r = 0.93], (usd, jpy) and [r = 157.50], or (usd, inr)
    and [r = 83.58].  For every other pair, in particular whenever the
    lowered base is not usd, the status is "error" and the message names
    the pair as it was passed in. *)
Theorem get_exchange_rate_correct (lower : string -> string)
    (base_currency target_currency : string) :
  let supported :=
    lower base_currency = "usd"
    ∧ (lower target_currency = "eur" ∨ lower target_currency = "jpy"
       ∨ lower target_currency = "inr") in
  let unsupported : dict :=
    {[ "status" := VStr "error";
       "error_message" :=
         VStr ("Unsupported currency pair: "
                 ++ base_currency ++ "/" ++ target_currency) ]} in
  (∀ r, get_exchange_rate lower base_currency target_currency
        = {[ "status" := VStr "success"; "rate" := VFloat r ]}
        ↔ lower base_currency = "usd"
          ∧ ((lower target_currency = "eur" ∧ r = 0.93%float)
             ∨ (lower target_currency = "jpy" ∧ r = 157.50%float)
             ∨ (lower target_currency = "inr" ∧ r = 83.58%float)))
  ∧ (get_exchange_rate lower base_currency target_currency = unsupported
     ↔ ¬ supported)
  ∧ (lower base_currency ≠ "usd" →
     get_exchange_rate lower base_currency target_currency = unsupported)
  ∧ unsupported !! "status" = Some (VStr "error")
  ∧ ((∃ r, get_exchange_rate lower base_currency target_currency
           = {[ "status" := VStr "success"; "rate" := VFloat r ]})
     ∨ get_exchange_rate lower base_currency target_currency = unsupported).
Proof.
  intros supported unsupported. subst supported unsupported.
  unfold get_exchange_rate.
  destruct (default ∅ (rate_database !! lower base_currency)
              !! lower target_currency) as [rate|] eqn:Hrate.
  - pose proof Hrate as Hsup. apply rate_database_lookup in Hsup.
    split_and!.
    + intros r. split.
      * intros H. apply success_inj in H; [subst r|done].
        by apply rate_database_lookup.
      * intros H. apply rate_database_lookup in H. congruence.
    + split.
      * intros H. by apply success_not_error in H.
      * intros H. exfalso. apply H.
        destruct Hsup as [Hb [[Ht _]|[[Ht _]|[Ht _]]]]; auto.
    + intros H. by destruct Hsup as [Hb _].
    + by simplify_map_eq.
    + left. by exists rate.
  - assert (Hnone : ∀ r, ¬ (lower base_currency = "usd"
        ∧ ((lower target_currency = "eur" ∧ r = 0.93%float)
           ∨ (lower target_currency = "jpy" ∧ r = 157.50%float)
           ∨ (lower target_currency = "inr" ∧ r = 83.58%float)))).
    { intros r H. apply rate_database_lookup in H. congruence. }
    split_and!.
    + intros r. split.
      * intros H. symmetry in H. by apply success_not_error in H.
      * intros H. by apply Hnone in H.
    + split; [intros _|done]. intros [Hb [Ht|[Ht|Ht]]].
      * apply (Hnone 0.93%float). auto.
      * apply (Hnone 157.50%float). auto.
      * apply (Hnone 83.58%float). auto.
    + done.
    + by simplify_map_eq.
    + by right.
Qed.

End tool_theorems.

(** The fee tool on a mixed-case name, with [ascii_lower] for [str.lower]. *)
Lemma get_fee_for_payment_method_on_platinum :
  AgentTools.get_fee_for_payment_method ascii_lower "Platinum Credit Card"
  = {[ "status" := VStr "success"; "fee_percentage" := VFloat 0.02%float ]}
  ∧ AgentTools.get_fee_for_payment_method ascii_lower "Platinum Credit Card"
    = AgentTools.get_fee_for_payment_method ascii_lower
        (ascii_lower "Platinum Credit Card").
Proof.
  destruct (get_fee_for_payment_method_correct ascii_lower ascii_lower_idem
              "Platinum Credit Card") as (Hok & _ & _ & Hlow).
  split; [|exact Hlow].
  apply Hok. left. split; reflexivity.
Defined.


(** ** The story workflow *)

Section story_theorems.
Import StoryWorkflow.

Variable writer_llm : string -> string.
Variable critic_llm : list Event -> string -> string.
Variable refiner_llm : list Event -> string -> string -> string.

(** *** The stages on a Workspace that holds what they read *)

Lemma critic_agent_reads (s : Session) (d : string) :
  state s !! "story_draft" = Some d →
  critic_agent critic_llm s
  = Ok (save "CriticAgent" [("story_draft", d)] "critique"
             (critic_llm (events s) d) s).
Proof. intros Hd. unfold critic_agent, read. by rewrite Hd. Qed.

Lemma refiner_agent_reads (s : Session) (d c : string) :
  state s !! "story_draft" = Some d →
  state s !! "critique" = Some c →
  refiner_agent refiner_llm s
  = Ok (if bool_decide (c = APPROVED)
        then call "RefinerAgent" [("story_draft", d); ("critique", c)]
                  "exit_loop" (FunctionTool exit_loop)
                  "current_story" (refiner_llm (events s) d c) s
        else save "RefinerAgent" [("story_draft", d); ("critique", c)]
                  "current_story" (refiner_llm (events s) d c) s).
Proof.
  intros Hd Hc. unfold refiner_agent, refiner_with, read, refiner_outcome.
  rewrite Hd, Hc. simpl. by case_bool_decide.
Qed.

Lemma critiqued_state s d :
  state (critiqued critic_llm s d)
  = <["critique" := critic_llm (events s) d]> (state s).
Proof. reflexivity. Qed.

(** One iteration of the loop body: whichever outcome the refiner takes, no
    event of the iteration carries the exit signal. *)
Lemma iteration_step (s : Session) (d : string) :
  state s !! "story_draft" = Some d →
  run_sub_agents [critic_agent critic_llm; refiner_agent refiner_llm]
                 (next_iteration s)
  = Ok (false,
        if bool_decide (critic_llm (events s) d = APPROVED)
        then exited critic_llm refiner_llm s d
        else revised critic_llm refiner_llm s d).
Proof.
  intros Hd. cbn [run_sub_agents].
  rewrite (critic_agent_reads (next_iteration s) d) by exact Hd.
  cbn [bind is_exit_signal save fst content].
  change (commit (next_iteration s) _) with (critiqued critic_llm s d).
  rewrite (refiner_agent_reads (critiqued critic_llm s d) d
             (critic_llm (events s) d)).
  - cbn [bind]. case_bool_decide; reflexivity.
  - rewrite critiqued_state. by rewrite lookup_insert_ne.
  - rewrite critiqued_state. by rewrite lookup_insert_eq.
Qed.

Lemma revised_events (s : Session) (d : string) :
  events (revised critic_llm refiner_llm s d)
  = (events s
     ++ [mkEvent "CriticAgent" (S (iteration s)) [("story_draft", d)]
                 (Text "critique" (critic_llm (events s) d));
         mkEvent "RefinerAgent" (S (iteration s))
                 [("story_draft", d); ("critique", critic_llm (events s) d)]
                 (Text "current_story"
                    (refiner_llm (events (critiqued critic_llm s d)) d
                       (critic_llm (events s) d)))])%list.
Proof. unfold revised. simpl. by rewrite <- app_assoc. Qed.

Lemma exited_events (s : Session) (d : string) :
  events (exited critic_llm refiner_llm s d)
  = (events s
     ++ [mkEvent "CriticAgent" (S (iteration s)) [("story_draft", d)]
                 (Text "critique" (critic_llm (events s) d));
         mkEvent "RefinerAgent" (S (iteration s))
                 [("story_draft", d); ("critique", critic_llm (events s) d)]
                 (ToolCall "exit_loop" (exit_loop ∅).1 false
                    (refiner_llm (events (critiqued critic_llm s d)) d
                       (critic_llm (events s) d)))])%list.
Proof. unfold exited. simpl. by rewrite <- app_assoc. Qed.

(** After the approval outcome the Workspace holds the critique, and the
    text the model added, if any, under [current_story]; nothing else has
    changed. *)
Lemma exited_state (s : Session) (d : string) :
  state (exited critic_llm refiner_llm s d)
  = let text := refiner_llm (events (critiqued critic_llm s d)) d
                  (critic_llm (events s) d) in
    let ws := <["critique" := critic_llm (events s) d]> (state s) in
    if bool_decide (text = "") then ws else <["current_story" := text]> ws.
Proof. reflexivity. Qed.

Lemma exited_frame (s : Session) (d k : string) :
  k ≠ "critique" → k ≠ "current_story" →
  state (exited critic_llm refiner_llm s d) !! k = state s !! k.
Proof.
  intros ? ?. rewrite exited_state. cbn zeta.
  case_bool_decide; by rewrite ?lookup_insert_ne.
Qed.

Lemma revised_frame (s : Session) (d k : string) :
  k ≠ "critique" → k ≠ "current_story" →
  state (revised critic_llm refiner_llm s d) !! k = state s !! k.
Proof. intros ? ?. simpl. by rewrite !lookup_insert_ne. Qed.

(** *** The loop from any session that holds a draft *)

Lemma concat_replicate_snoc {A} (n : nat) (l : list A) :
  (concat (replicate n l) ++ l)%list = concat (replicate (S n) l).
Proof.
  induction n as [|n IH]; simpl.
  - by rewrite app_nil_r.
  - rewrite <- app_assoc. by rewrite IH.
Qed.

Lemma concat_replicate_cons {A} (n : nat) (l : list A) :
  (l ++ concat (replicate n l))%list = concat (replicate (S n) l).
Proof. reflexivity. Qed.

(** The loop started from any session that holds a draft [d]: it succeeds
    and goes through all its iterations, it only appends events, a critic's
    and a refiner's per iteration, each of which read [d] under
    [story_draft], and it leaves every field but [critique] and
    [current_story] as it was. *)
Lemma loop_from_draft (N : nat) (d : string) (s : Session) :
  state s !! "story_draft" = Some d →
  ∃ sf new,
    story_refinement_loop critic_llm refiner_llm N s = Ok (exhausted, sf)
    ∧ events sf = (events s ++ new)%list
    ∧ map author new = concat (replicate N ["CriticAgent"; "RefinerAgent"])
    ∧ iteration sf = (iteration s + N)%nat
    ∧ Forall (fun e =>
                (author e = "CriticAgent" ∧ reads e = [("story_draft", d)])
                ∨ (author e = "RefinerAgent"
                   ∧ ∃ c, reads e = [("story_draft", d); ("critique", c)]))
             new
    ∧ (∀ k, k ≠ "critique" → k ≠ "current_story" →
            state sf !! k = state s !! k)
    ∧ prompt sf = prompt s.
Proof.
  revert s. induction N as [|N IH]; intros s Hd.
  - exists s, []. rewrite app_nil_r. split_and!; try done; lia.
  - unfold story_refinement_loop. cbn [LoopAgent].
    rewrite (iteration_step s d Hd). cbn [bind fst snd].
    set (s1 := if bool_decide (critic_llm (events s) d = APPROVED)
               then exited critic_llm refiner_llm s d
               else revised critic_llm refiner_llm s d).
    assert (Hs1 : state s1 !! "story_draft" = Some d
              ∧ iteration s1 = S (iteration s)
              ∧ prompt s1 = prompt s
              ∧ (∀ k, k ≠ "critique" → k ≠ "current_story" →
                      state s1 !! k = state s !! k)
              ∧ ∃ e1 e2, events s1 = (events s ++ [e1; e2])%list
                  ∧ author e1 = "CriticAgent"
                  ∧ reads e1 = [("story_draft", d)]
                  ∧ author e2 = "RefinerAgent"
                  ∧ ∃ c, reads e2 = [("story_draft", d); ("critique", c)]).
    { subst s1. case_bool_decide.
      - split; [by rewrite exited_frame|].
        split; [reflexivity|]. split; [reflexivity|].
        split; [intros k ? ?; by apply exited_frame|].
        eexists _, _. split; [apply exited_events|].
        split_and!; try reflexivity. by eexists.
      - split; [by rewrite revised_frame|].
        split; [reflexivity|]. split; [reflexivity|].
        split; [intros k ? ?; by apply revised_frame|].
        eexists _, _. split; [apply revised_events|].
        split_and!; try reflexivity. by eexists. }
    destruct Hs1 as (Hd1 & Hit1 & Hp1 & Hframe1 & e1 & e2 & Hev1
                     & Ha1 & Hr1 & Ha2 & Hr2).
    destruct (IH s1 Hd1)
      as (sf & new & Hrun & Hev & Hauth & Hit & Hnew & Hframe & Hprompt).
    exists sf, (e1 :: e2 :: new). split; [exact Hrun|]. split_and!.
    + rewrite Hev, Hev1, <- app_assoc. reflexivity.
    + cbn [map]. rewrite Ha1, Ha2, Hauth. reflexivity.
    + rewrite Hit, Hit1. lia.
    + apply Forall_cons_2; [by left|]. apply Forall_cons_2; [by right|done].
    + intros k Hk1 Hk2. rewrite Hframe by done. by apply Hframe1.
    + by rewrite Hprompt.
Qed.

Lemma loop_without_draft (N : nat) (s : Session) :
  state s !! "story_draft" = None →
  story_refinement_loop critic_llm refiner_llm N s
  = match N with
    | 0 => Ok (exhausted, s)
    | S _ => Err (StageFailure "CriticAgent" "story_draft")
    end.
Proof.
  intros Hd. destruct N as [|N]; [reflexivity|].
  unfold story_refinement_loop. cbn [LoopAgent run_sub_agents].
  unfold critic_agent, read. cbn [next_iteration state]. by rewrite Hd.
Qed.

(** *** The invariant *)

Lemma revising_start (p : string) :
  revising (writer_llm p) (drafted writer_llm p).
Proof.
  split; simpl.
  - by rewrite lookup_insert_eq.
  - reflexivity.
  - by repeat constructor.
  - by repeat constructor.
  - by repeat constructor.
  - eexists. split_and!; reflexivity.
Qed.

Lemma revising_revised (d : string) (s : Session) :
  revising d s →
  critic_llm (events s) d ≠ APPROVED →
  revising d (revised critic_llm refiner_llm s d).
Proof.
  intros [Hd Hauth Hrounds Hcritic Hrefiner _] Hc. split; simpl.
  - by rewrite !lookup_insert_ne.
  - rewrite !map_app, Hauth. simpl. rewrite <- app_assoc. f_equal.
    apply (concat_replicate_snoc (iteration s) ["CriticAgent"; "RefinerAgent"]).
  - rewrite !Forall_app. split_and!; [|by repeat constructor..].
    eapply Forall_impl; [exact Hrounds|]. simpl. lia.
  - rewrite !Forall_app. split_and!; [done| |by repeat constructor].
    repeat constructor. simpl. eauto.
  - rewrite !Forall_app. split_and!; [done|by repeat constructor|].
    repeat constructor. simpl. eauto.
  - eexists. rewrite last_snoc. split_and!; try reflexivity.
    eexists. split; [reflexivity|]. by rewrite lookup_insert_eq.
Qed.

(** As long as no critique is the sentinel the invariant is kept; once one
    is, the session holds that critique for good, since events are only
    appended. *)
Lemma loop_revising (N : nat) (d : string) (s : Session) :
  revising d s →
  ∃ sf,
    story_refinement_loop critic_llm refiner_llm N s = Ok (exhausted, sf)
    ∧ (revising d sf ∧ iteration sf = (iteration s + N)%nat
       ∨ ∃ e, e ∈ events sf ∧ author e = "CriticAgent"
              ∧ content e = Text "critique" "APPROVED").
Proof.
  revert s. induction N as [|N IH]; intros s Hs.
  - exists s. split; [reflexivity|]. left. split; [done|lia].
  - unfold story_refinement_loop. cbn [LoopAgent].
    rewrite (iteration_step s d) by apply Hs. cbn [bind fst snd].
    case_bool_decide as Hc.
    + destruct (loop_from_draft N d (exited critic_llm refiner_llm s d))
        as (sf & new & Hrun & Hev & _).
      { rewrite exited_frame by done. apply Hs. }
      exists sf. split; [exact Hrun|]. right.
      exists (mkEvent "CriticAgent" (S (iteration s)) [("story_draft", d)]
                      (Text "critique" (critic_llm (events s) d))).
      split_and!; [|done|by rewrite Hc].
      rewrite Hev, exited_events, !elem_of_app. left. right.
      apply list_elem_of_here.
    + destruct (IH (revised critic_llm refiner_llm s d))
        as (sf & Hrun & Hsf); [by apply revising_revised|].
      exists sf. split; [exact Hrun|].
      destruct Hsf as [[Hrev Hit]|Happroved]; [left|by right].
      split; [done|]. rewrite Hit. simpl. lia.
Qed.

(** *** The run *)

Lemma latest_artifact_revising (d : string) (s : Session) :
  revising d s →
  ∃ x a, latest_artifact s = Ok a
         ∧ last (events s) = Some x
         ∧ round x = iteration s
         ∧ match iteration s with
           | 0 => author x = "InitialWriter"
                  ∧ content x = Text "story_draft" a ∧ a = d
           | S _ => author x = "RefinerAgent"
                    ∧ content x = Text "current_story" a
           end.
Proof.
  intros [Hd _ _ _ _ (x & Hlast & Hround & Hart)].
  unfold latest_artifact, read.
  destruct (iteration s) as [|n].
  - destruct Hart as [-> Hcur]. rewrite Hcur, Hd. by eexists _, d.
  - destruct Hart as (Hauth & a & Hcont & Hcur).
    rewrite Hcur. by exists x, a.
Qed.

Lemma run_unfold (N : nat) (p : string) :
  run writer_llm critic_llm refiner_llm N p
  = let* r := story_refinement_loop critic_llm refiner_llm N (drafted writer_llm p) in
    let* a := latest_artifact r.2 in
    Ok (mkRunResult a r.1 r.2).
Proof. reflexivity. Qed.

(** A run never fails and never ends before its ceiling: the call to
    [exit_loop] raises no signal, so the loop is always exhausted. *)
Lemma run_reaches_the_ceiling (N : nat) (p : string) :
  ∃ a sf new,
    run writer_llm critic_llm refiner_llm N p
    = Ok (mkRunResult a exhausted sf)
    ∧ story_refinement_loop critic_llm refiner_llm N (drafted writer_llm p)
      = Ok (exhausted, sf)
    ∧ events sf = (events (drafted writer_llm p) ++ new)%list
    ∧ map author new = concat (replicate N ["CriticAgent"; "RefinerAgent"])
    ∧ iteration sf = N
    ∧ Forall (fun e =>
                (author e = "CriticAgent"
                 ∧ reads e = [("story_draft", writer_llm p)])
                ∨ (author e = "RefinerAgent"
                   ∧ ∃ c, reads e = [("story_draft", writer_llm p);
                                     ("critique", c)]))
             new
    ∧ state sf !! "story_draft" = Some (writer_llm p)
    ∧ latest_artifact sf = Ok a.
Proof.
  destruct (loop_from_draft N (writer_llm p) (drafted writer_llm p))
    as (sf & new & Hrun & Hev & Hauth & Hit & Hnew & Hframe & _); [done|].
  assert (Hd : state sf !! "story_draft" = Some (writer_llm p)).
  { by rewrite Hframe. }
  assert (∃ a, latest_artifact sf = Ok a) as [a Ha].
  { unfold latest_artifact, read. rewrite Hd.
    destruct (state sf !! "current_story"); by eexists. }
  exists a, sf, new. split_and!; try done.
  rewrite run_unfold, Hrun. cbn [bind fst snd]. by rewrite Ha.
Qed.

(** *** Counting invocations *)

Lemma invocations_alternation (m : nat) (es : list Event) :
  map author es
  = "InitialWriter" :: concat (replicate m ["CriticAgent"; "RefinerAgent"]) →
  invocations "InitialWriter" es = 1
  ∧ invocations "CriticAgent" es = m
  ∧ invocations "RefinerAgent" es = m.
Proof.
  intros H. unfold invocations. rewrite H. clear H.
  split_and!.
  - rewrite filter_cons_True by done. simpl. f_equal.
    induction m as [|m IH]; [done|]. cbn [replicate concat app].
    by rewrite !filter_cons_False.
  - rewrite filter_cons_False by done.
    induction m as [|m IH]; [done|]. cbn [replicate concat app].
    rewrite filter_cons_True, filter_cons_False by done. simpl. by rewrite IH.
  - rewrite filter_cons_False by done.
    induction m as [|m IH]; [done|]. cbn [replicate concat app].
    rewrite filter_cons_False, filter_cons_True by done. simpl. by rewrite IH.
Qed.

(** ** Alternation and exhaustion *)

(** C4: for every ceiling [N] (so in particular for every [N >= 1]) and every
    prompt, the run succeeds, and for some [m <= N] the stages ran in the
    order InitialWriter, then [m] times CriticAgent followed by
    RefinerAgent.  Hence the critic is invoked [m <= N] times, the refiner
    exactly as often, and they strictly alternate starting with the
    critic. *)
Theorem critic_and_refiner_alternate (N : nat) (p : string) :
  ∃ r m,
    run writer_llm critic_llm refiner_llm N p = Ok r
    ∧ (m ≤ N)%nat
    ∧ map author (events (session r))
      = "InitialWriter"
          :: concat (replicate m ["CriticAgent"; "RefinerAgent"])
    ∧ invocations "CriticAgent" (events (session r)) = m
    ∧ invocations "RefinerAgent" (events (session r)) = m.
Proof.
  destruct (run_reaches_the_ceiling N p)
    as (a & sf & new & Hrun & _ & Hev & Hauth & _).
  exists (mkRunResult a exhausted sf), N. cbn [session].
  assert (Hall : map author (events sf)
            = "InitialWriter"
                :: concat (replicate N ["CriticAgent"; "RefinerAgent"])).
  { rewrite Hev, map_app, Hauth. reflexivity. }
  destruct (invocations_alternation N _ Hall) as (_ & Hc & Hr).
  by split_and!.
Qed.

(** C5: every run succeeds; if no critique recorded in it is the sentinel,
    its termination reason is [exhausted], it went through all [N]
    iterations, and for [N >= 1] its last event is the refiner's story of
    iteration [N], which is the final artifact.  Reaching the ceiling is an
    ordinary [Ok] result, not an error. *)
Theorem exhausted_returns_last_revision (N : nat) (p : string) :
  ∃ r,
    run writer_llm critic_llm refiner_llm N p = Ok r
    ∧ ((∀ e, e ∈ events (session r) → author e = "CriticAgent" →
             content e ≠ Text "critique" "APPROVED") →
       reason r = exhausted
       ∧ iteration (session r) = N
       ∧ invocations "CriticAgent" (events (session r)) = N
       ∧ invocations "RefinerAgent" (events (session r)) = N
       ∧ ((1 ≤ N)%nat →
          ∃ e, last (events (session r)) = Some e
               ∧ author e = "RefinerAgent"
               ∧ round e = N
               ∧ content e = Text "current_story" (final_artifact r))).
Proof.
  destruct (run_reaches_the_ceiling N p)
    as (a & sf & new & Hrun & Hloop & Hev & Hauth & Hit & _ & _ & Ha).
  exists (mkRunResult a exhausted sf). split; [done|].
  cbn [session reason final_artifact]. intros Hnever.
  assert (Hall : map author (events sf)
            = "InitialWriter"
                :: concat (replicate N ["CriticAgent"; "RefinerAgent"])).
  { rewrite Hev, map_app, Hauth. reflexivity. }
  destruct (invocations_alternation N _ Hall) as (_ & Hcn & Hrn).
  split_and!; try done. intros HN.
  destruct (loop_revising N (writer_llm p) (drafted writer_llm p))
    as (sf' & Hloop' & Hsf); [apply revising_start|].
  rewrite Hloop in Hloop'. injection Hloop' as <-.
  destruct Hsf as [[Hrev _]|(e & Hin & Hauthor & Hcont)];
    [|by destruct (Hnever e Hin Hauthor)].
  destruct (latest_artifact_revising _ _ Hrev)
    as (x & a' & Ha' & Hlast & Hround & Hx).
  rewrite Ha in Ha'. injection Ha' as <-.
  rewrite Hit in Hx, Hround. destruct N as [|n]; [lia|].
  exists x. by destruct Hx.
Qed.

(** C6: with a ceiling of 0 the run returns the drafter's output with reason
    [exhausted]; the session holds one event, the drafter's, so the drafter
    ran once and the critic and the refiner never ran. *)
Theorem zero_iterations_returns_the_draft (p : string) :
  run writer_llm critic_llm refiner_llm 0 p
  = Ok (mkRunResult (writer_llm p) exhausted (drafted writer_llm p))
  ∧ events (drafted writer_llm p)
    = [mkEvent "InitialWriter" 0 [] (Text "story_draft" (writer_llm p))]
  ∧ invocations "InitialWriter" (events (drafted writer_llm p)) = 1
  ∧ invocations "CriticAgent" (events (drafted writer_llm p)) = 0
  ∧ invocations "RefinerAgent" (events (drafted writer_llm p)) = 0.
Proof.
  split_and!; [|reflexivity..].
  rewrite run_unfold. unfold story_refinement_loop. cbn [LoopAgent bind snd fst].
  unfold latest_artifact, read, drafted. cbn [commit save state snd fst].
  by rewrite lookup_insert_ne, lookup_insert_eq.
Qed.

(** ** The sentinel and the exit signal *)

(** C1: on a critique that is exactly the sentinel the approval outcome is
    not taken.  In an iteration whose critic answers "APPROVED" the refiner
    calls [exit_loop], as its instruction asks; the call returns the payload
    and raises no exit signal, so the iteration ends like any other: the loop
    goes on with the iterations it has left and ends [exhausted] at the
    ceiling. *)
Theorem sentinel_raises_no_exit_signal (n : nat) (s : Session) (d : string) :
  state s !! "story_draft" = Some d →
  critic_llm (events s) d = "APPROVED" →
  ∃ s' text,
    run_sub_agents [critic_agent critic_llm; refiner_agent refiner_llm]
                   (next_iteration s)
    = Ok (false, s')
    ∧ events s'
      = (events s
         ++ [mkEvent "CriticAgent" (S (iteration s)) [("story_draft", d)]
                     (Text "critique" "APPROVED");
             mkEvent "RefinerAgent" (S (iteration s))
                     [("story_draft", d); ("critique", "APPROVED")]
                     (ToolCall "exit_loop"
                        {[ "status" := VStr "approved";
                           "message" := VStr "Story approved, exiting loop." ]}
                        false text)])%list
    ∧ story_refinement_loop critic_llm refiner_llm (S n) s
      = story_refinement_loop critic_llm refiner_llm n s'
    ∧ ∃ sf,
        story_refinement_loop critic_llm refiner_llm (S n) s
        = Ok (exhausted, sf)
        ∧ iteration sf = (iteration s + S n)%nat.
Proof.
  intros Hd Hc.
  pose proof (iteration_step s d Hd) as Hstep.
  rewrite bool_decide_eq_true_2 in Hstep by exact Hc.
  exists (exited critic_llm refiner_llm s d),
         (refiner_llm (events (critiqued critic_llm s d)) d "APPROVED").
  split; [exact Hstep|].
  split; [rewrite exited_events, Hc; reflexivity|].
  split.
  - unfold story_refinement_loop at 1. cbn [LoopAgent].
    rewrite Hstep. reflexivity.
  - destruct (loop_from_draft (S n) d s Hd)
      as (sf & new & Hrun & _ & _ & Hit & _).
    by exists sf.
Qed.

End story_theorems.

(** C10: [exit_loop] takes no argument; whatever the Workspace it is called
    in, it returns the dictionary [{'status': 'approved', 'message': 'Story
    approved, exiting loop.'}] and leaves the Workspace as it found it, also
    after any number of earlier calls. *)
Theorem exit_loop_is_constant (ws : StoryWorkflow.Workspace) (calls : nat) :
  StoryWorkflow.exit_loop ws
  = ({[ "status" := VStr "approved";
        "message" := VStr "Story approved, exiting loop." ]}, ws)
  ∧ Nat.iter calls (fun w => (StoryWorkflow.exit_loop w).2) ws = ws
  ∧ StoryWorkflow.exit_loop
      (Nat.iter calls (fun w => (StoryWorkflow.exit_loop w).2) ws)
    = StoryWorkflow.exit_loop ws.
Proof.
  assert (Hiter : Nat.iter calls (fun w => (StoryWorkflow.exit_loop w).2) ws = ws).
  { induction calls as [|n IH]; [reflexivity|]. simpl. exact IH. }
  split_and!; [reflexivity|exact Hiter|by rewrite Hiter].
Qed.



(** ** The workflow on scripted conversations *)

Section scripted_runs.
Import StoryWorkflow.

(** C2: the critique of iteration 2 is not computed from the story the
    refiner wrote in iteration 1.  With the ceiling of the source, a drafter
    answering "draft-0", a critic that asks for more work and a refiner
    answering "draft-1" then "draft-2", the refiner stores "draft-1" under
    [current_story], and the critic of iteration 2 still reads "draft-0"
    from [story_draft], the field only the drafter writes. *)
Theorem critic_rereads_the_first_draft :
  ∃ r,
    run demo_writer strict_critic demo_rewriter max_iterations "a story" = Ok r
    ∧ events (session r)
      = [ mkEvent "InitialWriter" 0 [] (Text "story_draft" "draft-0");
          mkEvent "CriticAgent" 1 [("story_draft", "draft-0")]
                  (Text "critique" "needs work");
          mkEvent "RefinerAgent" 1
                  [("story_draft", "draft-0"); ("critique", "needs work")]
                  (Text "current_story" "draft-1");
          mkEvent "CriticAgent" 2 [("story_draft", "draft-0")]
                  (Text "critique" "needs work");
          mkEvent "RefinerAgent" 2
                  [("story_draft", "draft-0"); ("critique", "needs work")]
                  (Text "current_story" "draft-2") ]
    ∧ state (session r) !! "story_draft" = Some "draft-0"
    ∧ state (session r) !! "current_story" = Some "draft-2".
Proof.
  eexists. split; [vm_compute; reflexivity|].
  split; [reflexivity|]. split; vm_compute; reflexivity.
Qed.

(** C3: a critique that is exactly the sentinel does not end the run.  With
    the ceiling of the source, a drafter answering "draft-0", a critic that
    answers "APPROVED" at once and a refiner that calls [exit_loop] and says
    nothing else, the run does not stop in iteration 1 with reason
    [approved]: no event carries the exit signal, the critic and the refiner
    run again in iteration 2, and the run ends [exhausted]. *)
Theorem approval_does_not_end_the_run :
  ∃ r,
    run demo_writer approving_critic terse_rewriter max_iterations "a story"
    = Ok r
    ∧ reason r = exhausted
    ∧ iteration (session r) = 2
    ∧ events (session r)
      = [ mkEvent "InitialWriter" 0 [] (Text "story_draft" "draft-0");
          mkEvent "CriticAgent" 1 [("story_draft", "draft-0")]
                  (Text "critique" "APPROVED");
          mkEvent "RefinerAgent" 1
                  [("story_draft", "draft-0"); ("critique", "APPROVED")]
                  (ToolCall "exit_loop"
                     {[ "status" := VStr "approved";
                        "message" := VStr "Story approved, exiting loop." ]}
                     false "");
          mkEvent "CriticAgent" 2 [("story_draft", "draft-0")]
                  (Text "critique" "APPROVED");
          mkEvent "RefinerAgent" 2
                  [("story_draft", "draft-0"); ("critique", "APPROVED")]
                  (ToolCall "exit_loop"
                     {[ "status" := VStr "approved";
                        "message" := VStr "Story approved, exiting loop." ]}
                     false "") ]
    ∧ invocations "CriticAgent" (events (session r)) = 2
    ∧ invocations "RefinerAgent" (events (session r)) = 2
    ∧ final_artifact r = "draft-0".
Proof.
  eexists. split; [vm_compute; reflexivity|].
  split_and!; vm_compute; reflexivity.
Qed.

(** The second scenario of the spec: the critic says "needs work", then
    "APPROVED".  With a ceiling of 3 the run does not stop after iteration 2:
    iteration 3 runs as well, and the reason is [exhausted]. *)
Example run_second_time_critic :
  ∃ r,
    run demo_writer second_time_critic terse_rewriter 3 "a story" = Ok r
    ∧ reason r = exhausted
    ∧ iteration (session r) = 3
    ∧ map author (events (session r))
      = [ "InitialWriter"; "CriticAgent"; "RefinerAgent";
          "CriticAgent"; "RefinerAgent"; "CriticAgent"; "RefinerAgent" ]
    ∧ final_artifact r = "draft-1".
Proof.
  eexists. split; [vm_compute; reflexivity|].
  split_and!; vm_compute; reflexivity.
Qed.

(** What the model says after the tool's response is stored like any final
    response: a refiner that goes on talking after its call to [exit_loop]
    overwrites [current_story]. *)
Example refiner_writes_after_the_call :
  ∃ e ws,
    refiner_agent demo_rewriter
      (mkSession "a story"
         {[ "story_draft" := "draft-0"; "critique" := "APPROVED";
            "current_story" := "draft-1" ]} [] 2)
    = Ok (e, ws)
    ∧ is_exit_signal e = false
    ∧ ws !! "current_story" = Some "draft-n".
Proof.
  eexists _, _. split; [vm_compute; reflexivity|].
  split; vm_compute; reflexivity.
Qed.

(** For comparison, the same loop over a tool that raises the signal: the
    loop ends in iteration 1 with reason [approved].  The loop does observe
    the signal; [exit_loop] as the source defines it never raises one. *)
Example loop_ends_on_a_raised_signal :
  ∃ sf,
    LoopAgent [critic_agent approving_critic;
               refiner_with terse_rewriter signalling_exit_loop]
              max_iterations (drafted demo_writer "a story")
    = Ok (approved, sf)
    ∧ iteration sf = 1
    ∧ map author (events sf)
      = [ "InitialWriter"; "CriticAgent"; "RefinerAgent" ]
    ∧ (∃ e, last (events sf) = Some e ∧ is_exit_signal e = true).
Proof.
  eexists. split; [vm_compute; reflexivity|].
  split_and!; [reflexivity..|].
  eexists. split; reflexivity.
Qed.

Lemma run_strict_critic :
  run demo_writer strict_critic demo_rewriter 2 "a story"
  = Ok (mkRunResult "draft-2" exhausted
          (mkSession "a story"
             {[ "story_draft" := "draft-0"; "critique" := "needs work";
                "current_story" := "draft-2" ]}
             [ mkEvent "InitialWriter" 0 [] (Text "story_draft" "draft-0");
               mkEvent "CriticAgent" 1 [("story_draft", "draft-0")]
                       (Text "critique" "needs work");
               mkEvent "RefinerAgent" 1
                       [("story_draft", "draft-0"); ("critique", "needs work")]
                       (Text "current_story" "draft-1");
               mkEvent "CriticAgent" 2 [("story_draft", "draft-0")]
                       (Text "critique" "needs work");
               mkEvent "RefinerAgent" 2
                       [("story_draft", "draft-0"); ("critique", "needs work")]
                       (Text "current_story" "draft-2") ]
             2)).
Proof. vm_compute. reflexivity. Qed.

(** The first scenario of the spec: the critic always says "needs work";
    with a ceiling of 2 the run is exhausted and returns the refiner's
    second story. *)
Lemma exhausted_after_two_revisions :
  ∃ r,
    run demo_writer strict_critic demo_rewriter 2 "a story" = Ok r
    ∧ reason r = exhausted
    ∧ final_artifact r = "draft-2".
Proof.
  destruct (exhausted_returns_last_revision demo_writer strict_critic
              demo_rewriter 2 "a story") as (r & Hrun & Hexhausted).
  exists r. split; [exact Hrun|].
  assert (Hr : final_artifact r = "draft-2"
               ∧ ∀ e, e ∈ events (session r) → author e = "CriticAgent" →
                      content e ≠ Text "critique" "APPROVED").
  { rewrite run_strict_critic in Hrun. injection Hrun as <-.
    split; [reflexivity|]. intros e Hin _.
    apply list_elem_of_In in Hin. cbn [session events In] in Hin.
    destruct Hin as [<-|[<-|[<-|[<-|[<-|[]]]]]]; discriminate. }
  destruct Hr as [Hfinal Hnever].
  destruct (Hexhausted Hnever) as (Hreason & _).
  by split.
Defined.

(** The sentinel on the first reading, with the ceiling of the source: the
    loop is exhausted after both iterations. *)
Lemma sentinel_on_the_first_reading :
  ∃ sf,
    story_refinement_loop approving_critic terse_rewriter max_iterations
      (drafted demo_writer "a story")
    = Ok (exhausted, sf)
    ∧ iteration sf = 2.
Proof.
  destruct (sentinel_raises_no_exit_signal approving_critic terse_rewriter
              1 (drafted demo_writer "a story") "draft-0")
    as (s' & text & _ & _ & _ & sf & Hrun & Hit); [reflexivity..|].
  exists sf. split; [exact Hrun|exact Hit].
Defined.

End scripted_runs.

(** ** More on the lookup tools *)

Section tool_extras.
Import AgentTools.

Variable lower : string -> string.

Lemma get_exchange_rate_supported (b t : string) (r : float) :
  default ∅ (rate_database !! lower b) !! lower t = Some r →
  get_exchange_rate lower b t
  = {[ "status" := VStr "success"; "rate" := VFloat r ]}.
Proof. intros H. unfold get_exchange_rate. by rewrite H. Qed.

Lemma get_exchange_rate_unsupported (b t : string) :
  default ∅ (rate_database !! lower b) !! lower t = None →
  get_exchange_rate lower b t
  = {[ "status" := VStr "error";
       "error_message" :=
         VStr ("Unsupported currency pair: " ++ b ++ "/" ++ t) ]}.
Proof. intros H. unfold get_exchange_rate. by rewrite H. Qed.

(** X1: the rate tool looks the pair up after lowering it, so the status and
    the rate do not depend on letter case.  The error message does: it
    carries the arguments as they were passed.  The answers on a pair and
    on the lowered pair are therefore the same dictionary exactly when the
    pair is supported or lowering leaves the text "base/target" alone. *)
Theorem get_exchange_rate_case (b t : string) :
  (∀ s, lower (lower s) = lower s) →
  get_exchange_rate lower b t !! "status"
  = get_exchange_rate lower (lower b) (lower t) !! "status"
  ∧ get_exchange_rate lower b t !! "rate"
    = get_exchange_rate lower (lower b) (lower t) !! "rate"
  ∧ (get_exchange_rate lower b t
     = get_exchange_rate lower (lower b) (lower t)
     ↔ is_Some (get_exchange_rate lower b t !! "rate")
       ∨ b ++ "/" ++ t = lower b ++ "/" ++ lower t).
Proof.
  intros Hidem.
  destruct (default ∅ (rate_database !! lower b) !! lower t) as [r|] eqn:Hr.
  - rewrite (get_exchange_rate_supported b t r Hr).
    rewrite (get_exchange_rate_supported (lower b) (lower t) r)
      by (by rewrite !Hidem).
    split_and!; [done..|]. split; [intros _|done].
    left. by simplify_map_eq.
  - rewrite (get_exchange_rate_unsupported b t Hr).
    rewrite (get_exchange_rate_unsupported (lower b) (lower t))
      by (by rewrite !Hidem).
    split_and!; [by simplify_map_eq..|]. split.
    + intros H. right.
      apply (f_equal (.!! "error_message")) in H. by simplify_map_eq.
    + intros [[x Hx]|H]; [by simplify_map_eq|]. by rewrite H.
Qed.

(** X2: rates are listed in one direction only, from usd: a pair the tool
    converts cannot be converted back, and neither of its two currencies
    can be converted into itself. *)
Theorem get_exchange_rate_one_way (b t : string) (r : float) :
  get_exchange_rate lower b t
  = {[ "status" := VStr "success"; "rate" := VFloat r ]} →
  get_exchange_rate lower t b
  = {[ "status" := VStr "error";
       "error_message" := VStr ("Unsupported currency pair: " ++ t ++ "/" ++ b) ]}
  ∧ get_exchange_rate lower b b
    = {[ "status" := VStr "error";
         "error_message" := VStr ("Unsupported currency pair: " ++ b ++ "/" ++ b) ]}
  ∧ get_exchange_rate lower t t
    = {[ "status" := VStr "error";
         "error_message" := VStr ("Unsupported currency pair: " ++ t ++ "/" ++ t) ]}.
Proof.
  intros H.
  assert (lower b = "usd"
          ∧ (lower t = "eur" ∨ lower t = "jpy" ∨ lower t = "inr")) as [Hb Ht].
  { unfold get_exchange_rate in H.
    destruct (default ∅ (rate_database !! lower b) !! lower t) as [q|] eqn:Hq.
    - apply rate_database_lookup in Hq as [? [[? _]|[[? _]|[? _]]]]; auto.
    - symmetry in H. by apply success_not_error in H. }
  assert (Hno : ∀ x y, (lower x ≠ "usd" ∨ lower y = "usd") →
            default ∅ (rate_database !! lower x) !! lower y = None).
  { intros x y Hxy.
    destruct (default ∅ (rate_database !! lower x) !! lower y) as [q|] eqn:Hq;
      [|done].
    apply rate_database_lookup in Hq as [Hx Hy].
    destruct Hxy as [?|Hxy]; [done|]. rewrite Hxy in Hy.
    by destruct Hy as [[? _]|[[? _]|[? _]]]. }
  split_and!; apply get_exchange_rate_unsupported, Hno.
  - left. destruct Ht as [-> | [-> | ->]]; done.
  - by right.
  - left. destruct Ht as [-> | [-> | ->]]; done.
Qed.

(** X3: every fee the fee tool returns is a fraction, not a percentage: it lies
    strictly between 0 and 1, and is at most 0.025. *)
Theorem get_fee_for_payment_method_range (method : string) (f : float) :
  get_fee_for_payment_method lower method
  = {[ "status" := VStr "success"; "fee_percentage" := VFloat f ]} →
  (0 <? f)%float = true ∧ (f <=? 0.025)%float = true ∧ (f <? 1)%float = true.
Proof.
  intros H. unfold get_fee_for_payment_method in H.
  destruct (fee_database !! lower method) as [fee|] eqn:Hfee.
  - apply success_inj in H; [subst fee|done].
    apply fee_database_lookup in Hfee as [[_ ->]|[[_ ->]|[_ ->]]];
      by vm_compute.
  - symmetry in H. by apply success_not_error in H.
Qed.

End tool_extras.

(** The tools of this section on concrete arguments, with [ascii_lower]. *)
Lemma get_exchange_rate_case_on_eur_usd :
  AgentTools.get_exchange_rate ascii_lower "EUR" "USD" !! "status"
  = AgentTools.get_exchange_rate ascii_lower "eur" "usd" !! "status"
  ∧ AgentTools.get_exchange_rate ascii_lower "EUR" "USD"
    ≠ AgentTools.get_exchange_rate ascii_lower "eur" "usd".
Proof.
  destruct (get_exchange_rate_case ascii_lower "EUR" "USD" ascii_lower_idem)
    as (Hstatus & _ & Hsame).
  split; [exact Hstatus|].
  intros H. apply Hsame in H as [[x Hx]|H]; [|discriminate H].
  vm_compute in Hx. discriminate Hx.
Defined.

Lemma get_exchange_rate_one_way_on_usd_jpy :
  AgentTools.get_exchange_rate ascii_lower "jpy" "USD"
  = {[ "status" := VStr "error";
       "error_message" := VStr "Unsupported currency pair: jpy/USD" ]}.
Proof.
  destruct (get_exchange_rate_one_way ascii_lower "USD" "jpy" 157.50%float)
    as (Hback & _); [|exact Hback].
  vm_compute. reflexivity.
Defined.

Lemma get_fee_for_payment_method_range_on_gold :
  AgentTools.get_fee_for_payment_method ascii_lower "GOLD credit card"
  = {[ "status" := VStr "success"; "fee_percentage" := VFloat 0.025%float ]}
  ∧ (0 <? 0.025)%float = true ∧ (0.025 <=? 0.025)%float = true
  ∧ (0.025 <? 1)%float = true.
Proof.
  assert (Hgold :
    AgentTools.get_fee_for_payment_method ascii_lower "GOLD credit card"
    = {[ "status" := VStr "success";
         "fee_percentage" := VFloat 0.025%float ]}).
  { vm_compute. reflexivity. }
  split; [exact Hgold|].
  exact (get_fee_for_payment_method_range ascii_lower "GOLD credit card"
           0.025%float Hgold).
Defined.

(** ** More on the story workflow *)

Section story_extras.
Import StoryWorkflow.

Variable writer_llm : string -> string.
Variable critic_llm : list Event -> string -> string.
Variable refiner_llm : list Event -> string -> string -> string.


(** X6: the loop keeps the history and writes two fields only: whenever it
    returns, the events it started from are a prefix of the events it
    leaves, the prompt is unchanged, and every field other than [critique]
    and [current_story] holds what it held before. *)
Theorem story_refinement_loop_frame
    (N : nat) (s sf : Session) (why : Reason) :
  story_refinement_loop critic_llm refiner_llm N s = Ok (why, sf) →
  (∃ new, events sf = (events s ++ new)%list)
  ∧ prompt sf = prompt s
  ∧ ∀ k, k ≠ "critique" → k ≠ "current_story" →
         state sf !! k = state s !! k.
Proof.
  intros Hrun.
  destruct (state s !! "story_draft") as [d|] eqn:Hd.
  - destruct (loop_from_draft critic_llm refiner_llm N d s Hd)
      as (sf' & new & Hrun' & Hev & _ & _ & _ & Hframe & Hprompt).
    rewrite Hrun in Hrun'. injection Hrun' as -> ->.
    split_and!; [by exists new|done..].
  - rewrite (loop_without_draft critic_llm refiner_llm N s Hd) in Hrun.
    destruct N as [|N]; [|discriminate Hrun].
    injection Hrun as <- <-. split_and!; [|done..].
    exists []. by rewrite app_nil_r.
Qed.

End story_extras.

(** ** The blog pipeline and the research system *)

Section blog_theorems.
Import StoryWorkflow Pipelines.

Variable outline_llm : string -> string.
Variable writer_llm : list Event -> string -> string.
Variable editor_llm : list Event -> string -> string.

(** X7: from any Workspace the blog pipeline succeeds; the writer reads the
    outline the outline stage has just written and the editor the draft the
    writer has just written (a value the Workspace already held under
    [blog_outline] or [blog_draft] is overwritten before it is read); the
    three texts end up under their three fields and no other field is
    touched. *)
Theorem BlogPipeline_hands_each_text_on (s : Session) :
  ∃ sf outline draft post,
    BlogPipeline outline_llm writer_llm editor_llm s = Ok (false, sf)
    ∧ events sf
      = (events s
         ++ [mkEvent "OutlineAgent" (iteration s) []
                     (Text "blog_outline" outline);
             mkEvent "WriterAgent" (iteration s) [("blog_outline", outline)]
                     (Text "blog_draft" draft);
             mkEvent "EditorAgent" (iteration s) [("blog_draft", draft)]
                     (Text "final_blog_post" post)])%list
    ∧ outline = outline_llm (prompt s)
    ∧ state sf !! "blog_outline" = Some outline
    ∧ state sf !! "blog_draft" = Some draft
    ∧ state sf !! "final_blog_post" = Some post
    ∧ ∀ k, k ≠ "blog_outline" → k ≠ "blog_draft" → k ≠ "final_blog_post" →
           state sf !! k = state s !! k.
Proof.
  set (outline := outline_llm (prompt s)).
  set (e1 := mkEvent "OutlineAgent" (iteration s) [] (Text "blog_outline" outline)).
  set (draft := writer_llm (events s ++ [e1]) outline).
  set (e2 := mkEvent "WriterAgent" (iteration s) [("blog_outline", outline)]
                     (Text "blog_draft" draft)).
  set (post := editor_llm ((events s ++ [e1]) ++ [e2]) draft).
  set (e3 := mkEvent "EditorAgent" (iteration s) [("blog_draft", draft)]
                     (Text "final_blog_post" post)).
  exists (mkSession (prompt s)
            (<["final_blog_post" := post]>
               (<["blog_draft" := draft]>
                  (<["blog_outline" := outline]> (state s))))
            (((events s ++ [e1]) ++ [e2]) ++ [e3]) (iteration s)),
         outline, draft, post.
  cbn [events state]. split_and!.
  - unfold BlogPipeline. cbn [run_sub_agents outline_Agent bind].
    cbn [is_exit_signal save content fst].
    unfold writer_Agent at 1, read. cbn [commit save state snd].
    rewrite lookup_insert_eq. cbn [bind is_exit_signal save content fst].
    unfold editor_Agent at 1, read. cbn [commit save state snd].
    rewrite lookup_insert_eq. reflexivity.
  - by rewrite <- !app_assoc.
  - reflexivity.
  - do 2 (rewrite lookup_insert_ne by done). by rewrite lookup_insert_eq.
  - rewrite lookup_insert_ne by done. by rewrite lookup_insert_eq.
  - by rewrite lookup_insert_eq.
  - intros k ? ? ?. by rewrite !lookup_insert_ne.
Qed.

End blog_theorems.

Section research_theorems.
Import StoryWorkflow Pipelines.

Variable tech_llm health_llm finance_llm : list Event -> string -> string.
Variable aggregator_llm : list Event -> string -> string -> string -> string.

Lemma researcher_key_inj (r1 r2 : Researcher) :
  researcher_key r1 = researcher_key r2 → r1 = r2.
Proof. by destruct r1, r2. Qed.

Lemma researcher_saves (r : Researcher) (s : Session) :
  ∃ v, researcher tech_llm health_llm finance_llm r s
       = Ok (save (researcher_name r) [] (researcher_key r) v s).
Proof. destruct r; by eexists. Qed.

(** The researchers, in any order and number: each one that ran has its
    field set to a text it wrote in this run, and no other field changed. *)
Lemma researchers_run (order : list Researcher) (rest : list Stage)
    (s : Session) :
  ∃ sf new,
    run_sub_agents (map (researcher tech_llm health_llm finance_llm) order
                      ++ rest) s
    = run_sub_agents rest sf
    ∧ prompt sf = prompt s ∧ iteration sf = iteration s
    ∧ events sf = (events s ++ new)%list
    ∧ (∀ r, r ∈ order →
         ∃ v, state sf !! researcher_key r = Some v
              ∧ mkEvent (researcher_name r) (iteration s) []
                        (Text (researcher_key r) v) ∈ new)
    ∧ (∀ k, (∀ r, r ∈ order → k ≠ researcher_key r) →
            state sf !! k = state s !! k).
Proof.
  revert s. induction order as [|r0 order IH]; intros s.
  - exists s, []. rewrite app_nil_r. split_and!; try done.
    intros r Hr. by apply elem_of_nil in Hr.
  - destruct (researcher_saves r0 s) as [v0 Hr0].
    destruct (IH (commit s (save (researcher_name r0) []
                                 (researcher_key r0) v0 s)))
      as (sf & new & Hrun & Hprompt & Hit & Hev & Hkeys & Hframe).
    exists sf, (mkEvent (researcher_name r0) (iteration s) []
                        (Text (researcher_key r0) v0) :: new).
    split_and!.
    + cbn [map app run_sub_agents]. rewrite Hr0. cbn [bind].
      cbn [is_exit_signal save content fst]. exact Hrun.
    + by rewrite Hprompt.
    + by rewrite Hit.
    + rewrite Hev. cbn [commit events save fst]. by rewrite <- app_assoc.
    + intros r Hr. destruct (decide (r ∈ order)) as [Hin|Hout].
      * destruct (Hkeys r Hin) as (v & Hv & Hnew). exists v.
        split; [done|]. by apply list_elem_of_further.
      * apply elem_of_cons in Hr as [->|Hr]; [|done].
        exists v0. split; [|apply list_elem_of_here].
        rewrite Hframe.
        { cbn [commit state save snd]. by rewrite lookup_insert_eq. }
        intros r Hr Heq. apply researcher_key_inj in Heq as ->. done.
    + intros k Hk. rewrite Hframe.
      * cbn [commit state save snd]. rewrite lookup_insert_ne; [done|].
        intros Heq. by apply (Hk r0); [apply list_elem_of_here|].
      * intros r Hr. apply Hk. by apply list_elem_of_further.
Qed.

(** X8: however the three researchers' results are ordered, the research system
    succeeds from any Workspace; the aggregator, which runs last, reads under
    each of its three placeholders the text that researcher wrote in this
    run (not a value the Workspace held before), and stores its summary
    under [executive_summary]; no other field is touched. *)
Theorem ResearchSystem_aggregates_in_any_order
    (order : list Researcher) (s : Session) :
  order ≡ₚ parallel_research_team →
  ∃ sf tech health finance summary,
    ResearchSystem tech_llm health_llm finance_llm aggregator_llm order s
    = Ok (false, sf)
    ∧ last (events sf)
      = Some (mkEvent "AggregatorAgent" (iteration s)
                [("tech_summary", tech); ("health_summary", health);
                 ("finance_summary", finance)]
                (Text "executive_summary" summary))
    ∧ mkEvent "TechResearcher" (iteration s) [] (Text "tech_summary" tech)
      ∈ drop (length (events s)) (events sf)
    ∧ mkEvent "HealthResearcher" (iteration s) []
              (Text "health_summary" health)
      ∈ drop (length (events s)) (events sf)
    ∧ mkEvent "FinanceResearcher" (iteration s) []
              (Text "finance_summary" finance)
      ∈ drop (length (events s)) (events sf)
    ∧ state sf !! "tech_summary" = Some tech
    ∧ state sf !! "health_summary" = Some health
    ∧ state sf !! "finance_summary" = Some finance
    ∧ state sf !! "executive_summary" = Some summary
    ∧ ∀ k, k ≠ "tech_summary" → k ≠ "health_summary" →
           k ≠ "finance_summary" → k ≠ "executive_summary" →
           state sf !! k = state s !! k.
Proof.
  intros Horder. unfold ResearchSystem.
  destruct (researchers_run order [aggregator_agent aggregator_llm] s)
    as (s1 & new & Hrun & Hprompt & Hit & Hev & Hkeys & Hframe).
  assert (Hall : ∀ r, r ∈ order).
  { intros r. rewrite Horder. unfold parallel_research_team.
    destruct r; set_solver. }
  destruct (Hkeys Tech (Hall _)) as (tech & Ht & Het).
  destruct (Hkeys Health (Hall _)) as (health & Hh & Heh).
  destruct (Hkeys Finance (Hall _)) as (finance & Hf & Hef).
  cbn [researcher_key researcher_name] in *.
  rewrite Hrun. cbn [run_sub_agents].
  unfold aggregator_agent at 1, read. rewrite Ht, Hh, Hf. cbn [bind].
  cbn [is_exit_signal save content fst].
  eexists _, tech, health, finance, _. split; [reflexivity|].
  cbn [commit events state save fst snd]. rewrite Hit, Hev.
  split_and!.
  - by rewrite last_snoc.
  - rewrite <- app_assoc, drop_app_length. apply elem_of_app. by left.
  - rewrite <- app_assoc, drop_app_length. apply elem_of_app. by left.
  - rewrite <- app_assoc, drop_app_length. apply elem_of_app. by left.
  - by rewrite lookup_insert_ne.
  - by rewrite lookup_insert_ne.
  - by rewrite lookup_insert_ne.
  - by rewrite lookup_insert_eq.
  - intros k ? ? ? ?. rewrite lookup_insert_ne by done.
    apply Hframe. intros r _. by destruct r.
Qed.

End research_theorems.

(** The loop on a Workspace that also holds a field of the caller's. *)
Lemma loop_with_a_topic :
  StoryWorkflow.story_refinement_loop
    StoryWorkflow.strict_critic StoryWorkflow.demo_rewriter 1
    (StoryWorkflow.mkSession "a story"
       {[ "story_draft" := "draft-0"; "topic" := "lighthouse" ]}
       [ StoryWorkflow.mkEvent "InitialWriter" 0 []
           (StoryWorkflow.Text "story_draft" "draft-0") ] 0)
  = StoryWorkflow.Ok
      (StoryWorkflow.exhausted,
       StoryWorkflow.mkSession "a story"
         {[ "story_draft" := "draft-0"; "topic" := "lighthouse";
            "critique" := "needs work"; "current_story" := "draft-1" ]}
         [ StoryWorkflow.mkEvent "InitialWriter" 0 []
             (StoryWorkflow.Text "story_draft" "draft-0");
           StoryWorkflow.mkEvent "CriticAgent" 1 [("story_draft", "draft-0")]
             (StoryWorkflow.Text "critique" "needs work");
           StoryWorkflow.mkEvent "RefinerAgent" 1
             [("story_draft", "draft-0"); ("critique", "needs work")]
             (StoryWorkflow.Text "current_story" "draft-1") ]
         1).
Proof. vm_compute. reflexivity. Qed.

Lemma story_refinement_loop_keeps_the_topic :
  ∃ why sf,
    StoryWorkflow.story_refinement_loop
      StoryWorkflow.strict_critic StoryWorkflow.demo_rewriter 1
      (StoryWorkflow.mkSession "a story"
         {[ "story_draft" := "draft-0"; "topic" := "lighthouse" ]}
         [ StoryWorkflow.mkEvent "InitialWriter" 0 []
             (StoryWorkflow.Text "story_draft" "draft-0") ] 0)
    = StoryWorkflow.Ok (why, sf)
    ∧ StoryWorkflow.state sf !! "topic" = Some "lighthouse".
Proof.
  eexists _, _. split; [exact loop_with_a_topic|].
  destruct (story_refinement_loop_frame _ _ _ _ _ _ loop_with_a_topic)
    as (_ & _ & Hframe).
  rewrite Hframe by done. reflexivity.
Defined.

(** The research system when the finance report comes in first. *)
Lemma ResearchSystem_finance_first :
  ∃ sf,
    Pipelines.ResearchSystem
      (fun _ _ => "tech") (fun _ _ => "health") (fun _ _ => "finance")
      (fun _ t h f => t ++ "+" ++ h ++ "+" ++ f)
      [Pipelines.Finance; Pipelines.Tech; Pipelines.Health]
      (StoryWorkflow.new_session "daily briefing")
    = StoryWorkflow.Ok (false, sf)
    ∧ is_Some (StoryWorkflow.state sf !! "executive_summary").
Proof.
  destruct (ResearchSystem_aggregates_in_any_order
              (fun _ _ => "tech") (fun _ _ => "health") (fun _ _ => "finance")
              (fun _ t h f => t ++ "+" ++ h ++ "+" ++ f)
              [Pipelines.Finance; Pipelines.Tech; Pipelines.Health]
              (StoryWorkflow.new_session "daily briefing"))
    as (sf & tech & health & finance & summary & Hrun & Hrest).
  { apply permutations_Permutation. vm_compute.
    repeat first [apply list_elem_of_here | apply list_elem_of_further]. }
  exists sf. split; [exact Hrun|].
  exists summary. apply Hrest.
Defined.

